(** * krest: a read-only, password-gated REST reader over MongoDB

    Shallow embedding of [examples/krest.py] and the properties of its
    handlers.  Python objects are values of [pyval]; a [dict] is a finite
    map from strings; dict objects that the code holds by reference live
    in [objects]; exceptions and the storage calls are threaded through
    the monad [py]. *)

From Stdlib Require Import ZArith String.
From stdpp Require Import base option list gmap strings fin_maps.

Set Warnings "-register-all".

Local Open Scope Z_scope.
Local Open Scope string_scope.
Local Open Scope list_scope.

(** ** Python values *)

(** The values a stored document can carry: JSON-compatible values plus
    the store's [ObjectId]. *)
Inductive pyval : Type :=
  | PyNone
  | PyBool (b : bool)
  | PyInt (z : Z)
  | PyStr (s : string)
  | ObjectId (oid : string)
  | PyList (l : list pyval)
  | PyDict (d : gmap string pyval).

Abbreviation pydict := (gmap string pyval).

(** Truth value of a dict: empty dicts are false. *)
Definition dict_truthy (d : pydict) : bool := negb (Nat.eqb (size d) 0).

(** Truth value of a list, for [self.collections and ...]. *)
Definition list_truthy {A} (l : list A) : bool :=
  match l with [] => false | _ => true end.

(** [d.get(k, default)] *)
Definition dict_get (d : pydict) (k : string) (default : pyval) : pyval :=
  match d !! k with Some v => v | None => default end.

(** ** Exceptions, the world and the monad *)

Inductive exn : Type :=
  | KeyError (key : string)
  | TypeError
  | SystemError
  | HTTPError (code : Z) (text : string).

(** A storage call made through the driver. *)
Inductive query : Type :=
  | Find (collection : string)
  | FindOne (collection : string) (app : string).

(** [db] is the MongoDB database: collection name to its documents in the
    order storage returns them.  [queries] records the storage calls
    issued so far.  [objects] holds the dict objects the handler has
    references to; a reference is an index into it. *)
Record world : Type := World {
  db : gmap string (list pydict);
  queries : list query;
  objects : list pydict
}.

Inductive result (A : Type) : Type :=
  | Ok (a : A)
  | Raise (e : exn).
Arguments Ok {A} a.
Arguments Raise {A} e.

Definition py (A : Type) : Type := world → result A * world.

Definition ret {A} (a : A) : py A := fun w => (Ok a, w).
Definition raise {A} (e : exn) : py A := fun w => (Raise e, w).
Definition bind {A B} (m : py A) (k : A → py B) : py B :=
  fun w => match m w with
           | (Ok a, w') => k a w'
           | (Raise e, w') => (Raise e, w')
           end.

#[global] Instance py_ret : MRet py := @ret.
#[global] Instance py_bind : MBind py := fun A B k m => bind m k.

Fixpoint py_mapM {A B} (f : A → py B) (l : list A) : py (list B) :=
  match l with
  | [] => mret []
  | x :: l' => y ← f x; ys ← py_mapM f l'; mret (y :: ys)
  end.

(** [d[k]]: raises [KeyError] when the key is missing. *)
Definition getitem (d : pydict) (k : string) : py pyval :=
  match d !! k with
  | Some v => mret v
  | None => raise (KeyError k)
  end.

(** ** Dict objects held by reference *)

Definition new_dict (d : pydict) : py nat :=
  fun w => (Ok (length (objects w)),
            World (db w) (queries w) (objects w ++ [d])).

Definition deref (l : nat) : py pydict :=
  fun w => match objects w !! l with
           | Some d => (Ok d, w)
           | None => (Raise SystemError, w)
           end.

Definition assign (l : nat) (d : pydict) : py unit :=
  fun w => match objects w !! l with
           | Some _ => (Ok tt, World (db w) (queries w) (<[l:=d]> (objects w)))
           | None => (Raise SystemError, w)
           end.

(** [data.copy()]: a new dict object with the same items. *)
Definition dict_copy (l : nat) : py nat :=
  d ← deref l; new_dict d.

(** [data.pop(k, None)]: removes the key in place; the popped value (or
    [None]) is returned. *)
Definition dict_pop (l : nat) (k : string) : py pyval :=
  d ← deref l;
  assign l (delete k d);;
  mret (dict_get d k PyNone).

(** [data.update(k=v)]: sets the key in place. *)
Definition dict_update (l : nat) (k : string) (v : pyval) : py unit :=
  d ← deref l; assign l (<[k:=v]> d).

(** ** The document store, as the driver shows it *)

(** [connection[name]]: a handle on a collection; taking it sends nothing
    to the store.  The handle and the calls made through it are those of
    a store that can be reached and of a name the driver takes as the
    name of a collection: the driver's own refusals ([InvalidName], a lost
    connection) are not part of the model. *)
Inductive Collection : Type := Coll (name : string).

Definition documents (store : gmap string (list pydict)) (name : string)
  : list pydict :=
  default [] (store !! name).

(** [collection.find({})]: every document of the collection, in storage
    order. *)
Definition find (c : Collection) : py (list pydict) :=
  fun w => let 'Coll name := c in
           (Ok (documents (db w) name),
            World (db w) (queries w ++ [Find name]) (objects w)).

Definition is_str (app_name : string) (v : pyval) : bool :=
  match v with
  | PyStr s => bool_decide (s = app_name)
  | _ => false
  end.

(** Whether the store matches a document with the query
    [{"app": app_name}]: its [app] is the string, or is an array that has
    the string among its elements. *)
Definition app_is (app_name : string) (d : pydict) : bool :=
  match d !! "app" with
  | Some (PyList l) => existsb (is_str app_name) l
  | Some v => is_str app_name v
  | None => false
  end.

Fixpoint first_match (app_name : string) (docs : list pydict) : option pydict :=
  match docs with
  | [] => None
  | d :: docs' => if app_is app_name d then Some d else first_match app_name docs'
  end.

(** [collection.find_one({"app": app_name})]: the first document that
    the store matches with [app_name], as a dict object, or [None]. *)
Definition find_one (c : Collection) (app_name : string) : py (option nat) :=
  fun w => let 'Coll name := c in
           let w' := World (db w) (queries w ++ [FindOne name app_name]) (objects w) in
           match first_match app_name (documents (db w) name) with
           | Some d => let '(r, w'') := new_dict d w' in
                       (match r with Ok l => Ok (Some l) | Raise e => Raise e end, w'')
           | None => (Ok None, w')
           end.

(** ** Responses *)

(** Modelled from the spec: [kule.helpers.jsonify] is not under src/; it
    renders its argument as the JSON response body.  The body is
    represented by the value it serialises. *)
Inductive response : Type := jsonify (obj : pyval).

Record Request : Type := { GET : gmap string string }.

Record Kule : Type := { database : string; collections : list string }.

(** A view is called with the arguments of the route; a call with the
    wrong number of arguments raises [TypeError]. *)
Definition view : Type := list string → py response.

(** [abort(code, text)] of bottle raises [HTTPError]. *)
Definition abort {A} (code : Z) (text : string) : py A :=
  raise (HTTPError code text).

(** [error or 'Nothing here'] *)
Definition or_nothing_here (error : option string) : string :=
  match error with
  | Some EmptyString | None => "Nothing here"
  | Some s => s
  end.

Definition error404 (error : option string) : response :=
  jsonify (PyDict (<["error" := PyInt 404]>
                   (<["text" := PyStr (or_nothing_here error)]> ∅))).

Definition error401 (error : option string) : response :=
  jsonify (PyDict (<["error" := PyInt 401]>
                   (<["text" := PyStr "Unauthorized"]> ∅))).

(** What the listing shows for a record: its [app], or its [_id] when it
    has no [app]. *)
Definition listed (x : pydict) (name : pyval) : Prop :=
  x !! "app" = Some name ∨ (x !! "app" = None ∧ x !! "_id" = Some name).

(** ** Sample data *)

Definition req_with_key (k : string) : Request := {| GET := <["key" := k]> ∅ |}.
Definition req_without_key : Request := {| GET := ∅ |}.

(** The record [{_id, app: a, x: 1, y: 2}]. *)
Definition record_xy (oid : string) (a : string) : pydict :=
  <["_id" := ObjectId oid]>
    (<["app" := PyStr a]> (<["x" := PyInt 1]> (<["y" := PyInt 2]> ∅))).

Definition store_dev : gmap string (list pydict) :=
  <["dev" := [record_xy "5f1" "a";
              <["_id" := ObjectId "5f2"]> (<["port" := PyInt 80]> ∅)]]> ∅.

Definition store_staging : gmap string (list pydict) :=
  <["staging" := [<["_id" := ObjectId "7a0"]> (<["app" := PyStr "billing"]> ∅)]]> ∅.

(** A record that already has an [env] field. *)
Definition record_web : pydict :=
  <["_id" := ObjectId "9c4"]>
    (<["app" := PyStr "web"]> (<["env" := PyStr "old"]> (<["port" := PyInt 80]> ∅))).

Definition store_test : gmap string (list pydict) := <["test" := [record_web]]> ∅.

(** A partition where a record whose [app] is an array comes before the
    record [{app: "a", x: 1, y: 2}]. *)
Definition record_array : pydict :=
  <["_id" := ObjectId "5f0"]>
    (<["app" := PyList [PyStr "a"]]> (<["z" := PyInt 9]> ∅)).

Definition store_two : gmap string (list pydict) :=
  <["dev" := [record_array; record_xy "5f1" "a"]]> ∅.

(** A partition where the record [{app: "a", x: 1, y: 2}] comes after a
    record without [app]. *)
Definition store_later : gmap string (list pydict) :=
  <["dev" := [<["_id" := ObjectId "5f2"]> (<["port" := PyInt 80]> ∅);
              record_xy "5f1" "a"]]> ∅.

(** A record with an [app] and no [_id]. *)
Definition store_no_id : gmap string (list pydict) :=
  <["dev" := [<["app" := PyStr "a"]> ∅]]> ∅.

Definition store_dev_prod : gmap string (list pydict) :=
  <["prod" := [record_web]]> store_dev.

(** A document as a mock repository could return it: no [_id], no [app]. *)
Definition store_bare : gmap string (list pydict) :=
  <["dev" := [<["port" := PyInt 80]> ∅]]> ∅.

Definition fresh (store : gmap string (list pydict)) : world := World store [] [].

(** ** Strings and paths *)

(** The characters [str.strip()] removes: space, tab, newline, vertical
    tab, form feed and carriage return. *)
Definition is_space (c : Ascii.ascii) : bool :=
  let n := Ascii.N_of_ascii c in
  (N.eqb n 32 || (N.leb 9 n && N.leb n 13))%N.

(** A run of characters that [strip] removes. *)
Abbreviation blank := (Forall (λ c : Ascii.ascii, is_space c = true)).

Fixpoint lstrip (l : list Ascii.ascii) : list Ascii.ascii :=
  match l with
  | c :: l' => if is_space c then lstrip l' else l
  | [] => []
  end.

Definition rstrip (l : list Ascii.ascii) : list Ascii.ascii :=
  rev (lstrip (rev l)).

(** [s.strip()] *)
Definition strip (s : string) : string :=
  string_of_list_ascii (rstrip (lstrip (list_ascii_of_string s))).

(** [os.path.join(a, b)] on a POSIX system. *)
Definition os_path_join (a b : string) : string :=
  if String.prefix "/" b then b
  else if bool_decide (a = "") || String.prefix "/" (String.rev a) then a +:+ b
  else a +:+ "/" +:+ b.

Section Krest.

(** [MASTER_PASS] is read from [krest.pass] when the module is loaded;
    [request] is bottle's current request. *)
Variable MASTER_PASS : string.
Variable request : Request.

Definition check_auth (fxn : view) : view :=
  fun args =>
    if bool_decide (GET request !! "key" = Some MASTER_PASS)
    then fxn args
    else mret (error401 None).

(** *** class ReadOnly *)

Definition patch_detail (self : Kule) : view :=
  fun args =>
    match args with
    | [collection; pk] => abort 500 "not implemented"
    | _ => raise TypeError
    end.

Definition put_detail := patch_detail.
Definition delete_detail := patch_detail.
Definition post_list := patch_detail.

(** *** class Krest *)

Definition Krest_init : Kule :=
  {| database := "config"; collections := ["dev"; "test"; "prod"] |}.

(** The result of [error404] is dropped: nothing is raised and nothing is
    returned from the branch. *)
Definition get_collection (self : Kule) (collection : string) : py Collection :=
  (if list_truthy (collections self)
      && negb (bool_decide (collection ∈ collections self))
   then _ ← mret (error404 (Some "invalid environment")); mret tt
   else mret tt);;
  mret (Coll collection).

(** The element expression of the comprehension in [get_list],
    [x.get('app', x['_id'])]: both arguments of [get] are evaluated
    before the call, so [x['_id']] is looked up for every record. *)
Definition app_or_id (x : pydict) : py pyval :=
  oid ← getitem x "_id";
  mret (dict_get x "app" oid).

Definition get_list_fxn (self : Kule) : view :=
  fun args =>
    match args with
    | [collection] =>
        let env_name := collection in
        collection ← get_collection self env_name;
        collection ← find collection;
        names ← py_mapM app_or_id collection;
        mret (jsonify (PyList names))
    | _ => raise TypeError
    end.

Definition get_list (self : Kule) : view := check_auth (get_list_fxn self).

(** [found or {}] *)
Definition or_empty_dict (found : option nat) : py nat :=
  match found with
  | Some l => d ← deref l; if dict_truthy d then mret l else new_dict ∅
  | None => new_dict ∅
  end.

Definition get_detail_fxn (self : Kule) : view :=
  fun args =>
    match args with
    | [collection; pk] =>
        let app_name := pk in
        let env_name := collection in
        collection ← get_collection self env_name;
        found ← find_one collection app_name;
        data ← or_empty_dict found;
        data ← dict_copy data;
        dict_pop data "_id";;
        dict_update data "env" (PyStr env_name);;
        d ← deref data;
        if dict_truthy d
        then mret (jsonify (PyDict d))
        else mret (jsonify (PyDict ∅))
    | _ => raise TypeError
    end.

Definition get_detail (self : Kule) : view := check_auth (get_detail_fxn self).

(** *** Routing *)

(** Modelled from the spec: the router of the base class
    ([Kule.dispatch_views]) is not under src/.  The surface has the list
    route [/{env}] and the detail route [/{env}/{app}]; a request is
    served by the method named after its verb and its route, called with
    the path segments of the route. *)
Inductive route : Type :=
  | list_route (collection : string)
  | detail_route (collection pk : string).

Definition route_handler (method : string) (r : route) : string :=
  match r with
  | list_route _ => method +:+ "_list"
  | detail_route _ _ => method +:+ "_detail"
  end.

Definition route_args (r : route) : list string :=
  match r with
  | list_route collection => [collection]
  | detail_route collection pk => [collection; pk]
  end.

(** The handlers that [Krest] and [ReadOnly] define, by attribute name.
    Any other name is resolved in [Kule], which is not under src/. *)
Definition Krest_getattr (self : Kule) (name : string) : option view :=
  if bool_decide (name = "get_list") then Some (get_list self)
  else if bool_decide (name = "get_detail") then Some (get_detail self)
  else if bool_decide (name = "patch_detail") then Some (patch_detail self)
  else if bool_decide (name = "put_detail") then Some (put_detail self)
  else if bool_decide (name = "delete_detail") then Some (delete_detail self)
  else if bool_decide (name = "post_list") then Some (post_list self)
  else None.

(** Modelled from the spec: how the router of [Kule] picks and calls the
    handler of a request.  [None] stands for a handler that only [Kule]
    has. *)
Definition dispatch (self : Kule) (method : string) (r : route)
  : option (py response) :=
  match Krest_getattr self (route_handler method r) with
  | Some handler => Some (handler (route_args r))
  | None => None
  end.

(** ** Start-up *)

Definition LISTEN_PORT : Z := 8000.
Definition LISTEN_HOST : string := "0.0.0.0".

(** [here] is [os.path.dirname(__file__)]. *)
Definition PASSWORD_FILE (here : string) : string := os_path_join here "krest.pass".
Definition CERT_FILE (here : string) : string := os_path_join here "krest_cert.pem".
Definition PEM_FILE (here : string) : string := os_path_join here "krest_key.pem".

Inductive startup_error : Type :=
  | IOError (filename : string)
  | RuntimeError (message : string)
  | ConnectionFailure.

(** How running the file as a script ends: the server is handed to
    [krest.run], or an exception stops the script before that. *)
Inductive startup : Type :=
  | Serving (secret : string) (krest : Kule) (host : string) (port : Z)
  | Crashed (e : startup_error).

(** The module body and the [__main__] block, over the files that exist
    (path to contents): the password file is read when the module is
    loaded, then the certificate and the key are looked for, then
    [Krest()] is built.  Building it connects to the store ([Kule.__init__],
    not under src/), which raises [ConnectionFailure] when the store
    cannot be reached: [store_up] says whether it can. *)
Definition main (here : string) (files : gmap string string) (store_up : bool)
  : startup :=
  match files !! PASSWORD_FILE here with
  | None => Crashed (IOError (PASSWORD_FILE here))
  | Some contents =>
      let MASTER_PASS := strip contents in
      if negb (bool_decide (is_Some (files !! CERT_FILE here)))
      then Crashed (RuntimeError ("no such cert: " +:+ CERT_FILE here))
      else if negb (bool_decide (is_Some (files !! PEM_FILE here)))
      then Crashed (RuntimeError ("no such cert: " +:+ PEM_FILE here))
      else if store_up
      then Serving MASTER_PASS Krest_init LISTEN_HOST LISTEN_PORT
      else Crashed ConnectionFailure
  end.

Definition newline : string := String (Ascii.ascii_of_nat 10) "".

(** The three files in [/srv/krest], the password file as [echo] writes it. *)
Definition files_srv : gmap string string :=
  <["/srv/krest/krest.pass" := "mypass" +:+ newline]>
    (<["/srv/krest/krest_cert.pem" := "CERTIFICATE"]>
       (<["/srv/krest/krest_key.pem" := "RSA PRIVATE KEY"]> ∅)).

(** The same with a password file that has a single newline. *)
Definition files_blank : gmap string string :=
  <["/srv/krest/krest.pass" := newline]> files_srv.

(** ** The monad, step by step *)

Lemma bind_Ok {A B} (m : py A) (k : A → py B) w a w' :
  m w = (Ok a, w') → (m ≫= k) w = k a w'.
Proof. intros H. unfold mbind, py_bind, bind. by rewrite H. Qed.

Lemma bind_Raise {A B} (m : py A) (k : A → py B) w e w' :
  m w = (Raise e, w') → (m ≫= k) w = (Raise e, w').
Proof. intros H. unfold mbind, py_bind, bind. by rewrite H. Qed.

Lemma mret_Ok {A} (a : A) w : (mret a : py A) w = (Ok a, w).
Proof. reflexivity. Qed.

(** ** Dict objects *)

Lemma deref_Ok l d w : objects w !! l = Some d → deref l w = (Ok d, w).
Proof. intros H. unfold deref. by rewrite H. Qed.

Lemma assign_Ok l d d0 w :
  objects w !! l = Some d0 →
  assign l d w = (Ok tt, World (db w) (queries w) (<[l:=d]> (objects w))).
Proof. intros H. unfold assign. by rewrite H. Qed.

Lemma lookup_new (objs : list pydict) (d : pydict) : (objs ++ [d]) !! length objs = Some d.
Proof. rewrite lookup_app_r by lia. by rewrite Nat.sub_diag. Qed.

Lemma insert_new (objs : list pydict) (d d' : pydict) :
  <[length objs := d']> (objs ++ [d]) = objs ++ [d'].
Proof. rewrite insert_app_r_alt by lia. by rewrite Nat.sub_diag. Qed.

Lemma dict_copy_Ok l d w :
  objects w !! l = Some d →
  dict_copy l w = (Ok (length (objects w)),
                   World (db w) (queries w) (objects w ++ [d])).
Proof. intros H. unfold dict_copy. by rewrite (bind_Ok _ _ _ _ _ (deref_Ok _ _ _ H)). Qed.

Lemma dict_pop_Ok l k d w :
  objects w !! l = Some d →
  dict_pop l k w = (Ok (dict_get d k PyNone),
                    World (db w) (queries w) (<[l:=delete k d]> (objects w))).
Proof.
  intros H. unfold dict_pop.
  rewrite (bind_Ok _ _ _ _ _ (deref_Ok _ _ _ H)).
  by rewrite (bind_Ok _ _ _ _ _ (assign_Ok _ _ _ _ H)).
Qed.

(** A pop through a reference is seen through every reference to the
    same object. *)
Lemma dict_pop_in_place l k d w :
  objects w !! l = Some d →
  objects (dict_pop l k w).2 !! l = Some (delete k d).
Proof.
  intros H. rewrite (dict_pop_Ok _ _ _ _ H). simpl.
  apply list_lookup_insert_eq. by apply lookup_lt_Some in H.
Qed.

Lemma dict_update_Ok l k v d w :
  objects w !! l = Some d →
  dict_update l k v w = (Ok tt,
                         World (db w) (queries w) (<[l:=<[k:=v]> d]> (objects w))).
Proof.
  intros H. unfold dict_update.
  rewrite (bind_Ok _ _ _ _ _ (deref_Ok _ _ _ H)).
  by apply assign_Ok with d.
Qed.

Lemma dict_truthy_insert k v (d : pydict) : dict_truthy (<[k:=v]> d) = true.
Proof.
  unfold dict_truthy. apply negb_true_iff, Nat.eqb_neq.
  intros H. apply map_size_empty_iff in H.
  by apply insert_non_empty in H.
Qed.

Lemma dict_falsy_empty (d : pydict) : dict_truthy d = false → d = ∅.
Proof.
  unfold dict_truthy. intros H. apply negb_false_iff, Nat.eqb_eq in H.
  by apply map_size_empty_iff.
Qed.

(** ** Authorisation *)

Lemma check_auth_pass fxn args :
  GET request !! "key" = Some MASTER_PASS → check_auth fxn args = fxn args.
Proof. intros H. unfold check_auth. by rewrite bool_decide_eq_true_2. Qed.

Lemma check_auth_fail fxn args w :
  GET request !! "key" ≠ Some MASTER_PASS →
  check_auth fxn args w = (Ok (error401 None), w).
Proof. intros H. unfold check_auth. by rewrite bool_decide_eq_false_2. Qed.

(** ** Resolving the environment *)

(** [get_collection] hands out the handle for every name, permitted or
    not, and leaves the world as it is. *)
Lemma get_collection_Ok self collection w :
  get_collection self collection w = (Ok (Coll collection), w).
Proof. unfold get_collection. by destruct (_ && _). Qed.

(** ** The listing *)

Lemma app_or_id_Ok x oid w :
  x !! "_id" = Some oid → app_or_id x w = (Ok (dict_get x "app" oid), w).
Proof. intros H. unfold app_or_id, getitem. by rewrite H. Qed.

Lemma app_or_id_KeyError x w :
  x !! "_id" = None → app_or_id x w = (Raise (KeyError "_id"), w).
Proof. intros H. unfold app_or_id, getitem. by rewrite H. Qed.

Lemma mapM_app_or_id_Ok docs w :
  Forall (λ x : pydict, is_Some (x !! "_id")) docs →
  ∃ names, py_mapM app_or_id docs w = (Ok names, w) ∧ Forall2 listed docs names.
Proof.
  induction 1 as [|x docs [oid Hoid] _ (names & IH & Hn)]; simpl.
  - exists []. split; [done | constructor].
  - exists (dict_get x "app" oid :: names). split.
    + rewrite (bind_Ok _ _ _ _ _ (app_or_id_Ok _ _ _ Hoid)).
      by rewrite (bind_Ok _ _ _ _ _ IH).
    + constructor; [| done]. unfold listed, dict_get.
      destruct (x !! "app"); eauto.
Qed.

Lemma mapM_app_or_id_KeyError docs x w :
  x ∈ docs → x !! "_id" = None →
  py_mapM app_or_id docs w = (Raise (KeyError "_id"), w).
Proof.
  intros Hin Hx. induction docs as [|y docs IH]; [by apply elem_of_nil in Hin |].
  simpl. destruct (y !! "_id") as [oid|] eqn:Hy.
  - apply elem_of_cons in Hin as [-> | Hin]; [congruence |].
    rewrite (bind_Ok _ _ _ _ _ (app_or_id_Ok _ _ _ Hy)).
    by rewrite (bind_Raise _ _ _ _ _ (IH Hin)).
  - by rewrite (bind_Raise _ _ _ _ _ (app_or_id_KeyError _ _ Hy)).
Qed.

(** The projection reads the documents only: its result does not depend
    on the world and it leaves the world as it is. *)
Lemma mapM_app_or_id_pure docs :
  ∃ r, ∀ w, py_mapM app_or_id docs w = (r, w).
Proof.
  induction docs as [|x docs [r IH]]; simpl.
  - by exists (Ok []).
  - destruct (x !! "_id") as [oid|] eqn:Hx.
    + destruct r as [names|e].
      * exists (Ok (dict_get x "app" oid :: names)). intros w'.
        rewrite (bind_Ok _ _ _ _ _ (app_or_id_Ok _ _ _ Hx)).
        by rewrite (bind_Ok _ _ _ _ _ (IH w')).
      * exists (Raise e). intros w'.
        rewrite (bind_Ok _ _ _ _ _ (app_or_id_Ok _ _ _ Hx)).
        by rewrite (bind_Raise _ _ _ _ _ (IH w')).
    + exists (Raise (KeyError "_id")). intros w'.
      by rewrite (bind_Raise _ _ _ _ _ (app_or_id_KeyError _ _ Hx)).
Qed.

Lemma get_list_fxn_unfold self c w :
  get_list_fxn self [c] w =
  (names ← py_mapM app_or_id (documents (db w) c); mret (jsonify (PyList names)))
    (World (db w) (queries w ++ [Find c]) (objects w)).
Proof.
  unfold get_list_fxn.
  rewrite (bind_Ok _ _ _ _ _ (get_collection_Ok _ _ _)).
  by erewrite bind_Ok by reflexivity.
Qed.

(** ** The detail *)

Lemma find_one_found c pk w d :
  first_match pk (documents (db w) c) = Some d →
  find_one (Coll c) pk w =
  (Ok (Some (length (objects w))),
   World (db w) (queries w ++ [FindOne c pk]) (objects w ++ [d])).
Proof. intros H. unfold find_one. by rewrite H. Qed.

Lemma find_one_absent c pk w :
  first_match pk (documents (db w) c) = None →
  find_one (Coll c) pk w =
  (Ok None, World (db w) (queries w ++ [FindOne c pk]) (objects w)).
Proof. intros H. unfold find_one. by rewrite H. Qed.

(** From a dict object [d] at [l], the last of the live objects, the tail
    of [get_detail] (copy, pop, update, test, render) allocates the copy
    and renders it; the object at [l] is not written. *)
Lemma shape_and_render env_name objs d w :
  objects w = objs ++ [d] →
  (data ← dict_copy (length objs);
   dict_pop data "_id";;
   dict_update data "env" (PyStr env_name);;
   d' ← deref data;
   if dict_truthy d'
   then mret (jsonify (PyDict d'))
   else mret (jsonify (PyDict ∅))) w =
  (Ok (jsonify (PyDict (<["env" := PyStr env_name]> (delete "_id" d)))),
   World (db w) (queries w)
         (objs ++ [d; <["env" := PyStr env_name]> (delete "_id" d)])).
Proof.
  intros Hobjs.
  assert (objects w !! length objs = Some d) as Hl
    by (rewrite Hobjs; apply lookup_new).
  rewrite (bind_Ok _ _ _ _ _ (dict_copy_Ok _ _ _ Hl)).
  rewrite Hobjs.
  erewrite bind_Ok; last by (apply dict_pop_Ok; simpl; apply lookup_new).
  simpl. rewrite insert_new.
  erewrite bind_Ok; last by (apply dict_update_Ok; simpl; apply lookup_new).
  simpl. rewrite insert_new.
  erewrite bind_Ok; last by (apply deref_Ok; simpl; apply lookup_new).
  rewrite dict_truthy_insert. rewrite <- (assoc_L (++)). reflexivity.
Qed.

Lemma or_empty_dict_found l d w :
  objects w !! l = Some d →
  or_empty_dict (Some l) w = if dict_truthy d then (Ok l, w) else new_dict ∅ w.
Proof.
  intros H. unfold or_empty_dict.
  rewrite (bind_Ok _ _ _ _ _ (deref_Ok _ _ _ H)).
  by destruct (dict_truthy d).
Qed.

(** [get_detail] when the store has a matching document [d]: the body is
    [d] without [_id] and with [env] set; the fetched object is still [d]
    afterwards, and only new objects were added. *)
Lemma get_detail_fxn_found self c pk w d :
  first_match pk (documents (db w) c) = Some d →
  ∃ news,
    get_detail_fxn self [c; pk] w =
    (Ok (jsonify (PyDict (<["env" := PyStr c]> (delete "_id" d)))),
     World (db w) (queries w ++ [FindOne c pk]) (objects w ++ d :: news)).
Proof.
  intros Hd. unfold get_detail_fxn.
  rewrite (bind_Ok _ _ _ _ _ (get_collection_Ok _ _ _)).
  rewrite (bind_Ok _ _ _ _ _ (find_one_found _ _ _ _ Hd)).
  destruct (dict_truthy d) eqn:Ht.
  - erewrite bind_Ok; last first.
    { rewrite (or_empty_dict_found _ d), Ht; [done |]. apply lookup_new. }
    exists [<["env" := PyStr c]> (delete "_id" d)].
    by rewrite (shape_and_render c (objects w) d).
  - erewrite bind_Ok; last first.
    { rewrite (or_empty_dict_found _ d), Ht; [done |]. apply lookup_new. }
    apply dict_falsy_empty in Ht as ->.
    exists [∅; <["env" := PyStr c]> (delete "_id" ∅)].
    simpl. rewrite (shape_and_render c (objects w ++ [∅]) ∅) by done.
    simpl. by rewrite <- (assoc_L (++)).
Qed.

(** [get_detail] when no document matches: [env] is set on the empty
    dict before the emptiness test, so the body is [{"env": c}]. *)
Lemma get_detail_fxn_absent self c pk w :
  first_match pk (documents (db w) c) = None →
  ∃ news,
    get_detail_fxn self [c; pk] w =
    (Ok (jsonify (PyDict (<["env" := PyStr c]> ∅))),
     World (db w) (queries w ++ [FindOne c pk]) (objects w ++ news)).
Proof.
  intros Hd. unfold get_detail_fxn.
  rewrite (bind_Ok _ _ _ _ _ (get_collection_Ok _ _ _)).
  rewrite (bind_Ok _ _ _ _ _ (find_one_absent _ _ _ Hd)).
  unfold or_empty_dict.
  erewrite (bind_Ok (new_dict _)) by reflexivity.
  exists [∅; <["env" := PyStr c]> ∅]. simpl.
  rewrite (shape_and_render c (objects w) ∅) by done.
  by rewrite delete_empty.
Qed.

Lemma first_match_None app_name docs :
  Forall (λ d : pydict, app_is app_name d = false) docs →
  first_match app_name docs = None.
Proof. induction 1 as [|y docs Hy _ IH]; simpl; [done | by rewrite Hy]. Qed.

Lemma first_match_first app_name pre d post :
  Forall (λ d' : pydict, app_is app_name d' = false) pre →
  app_is app_name d = true →
  first_match app_name (pre ++ d :: post) = Some d.
Proof.
  intros Hpre Hd. induction Hpre as [|y pre Hy _ IH]; simpl.
  - by rewrite Hd.
  - by rewrite Hy.
Qed.



(** Neither deleting [_id] nor setting [env] changes whether the store's
    query for an application matches. *)
Lemma app_is_shaped app_name e (d : pydict) :
  app_is app_name (<["env" := PyStr e]> (delete "_id" d)) = app_is app_name d.
Proof. unfold app_is. by rewrite lookup_insert_ne, lookup_delete_ne. Qed.

(** ** The properties of the handlers *)

(** C4: when the [key] parameter is absent or is not the secret, both
    endpoints return the 401 body [{"error": 401, "text": "Unauthorized"}]
    and the world is as before: whatever handler is wrapped is not run and
    no storage call is made. *)
Theorem unauthorized_is_401 self args w :
  GET request !! "key" ≠ Some MASTER_PASS →
  get_list self args w = (Ok (error401 None), w) ∧
  get_detail self args w = (Ok (error401 None), w) ∧
  (∀ fxn : view, check_auth fxn args w = (Ok (error401 None), w)) ∧
  error401 None =
    jsonify (PyDict (<["error" := PyInt 401]> (<["text" := PyStr "Unauthorized"]> ∅))).
Proof.
  intros Hkey. repeat split; try intros fxn; by apply check_auth_fail.
Qed.

Section Authorised.

Hypothesis key_ok : GET request !! "key" = Some MASTER_PASS.

Lemma get_list_pass self args : get_list self args = get_list_fxn self args.
Proof. by apply check_auth_pass. Qed.

Lemma get_detail_pass self args : get_detail self args = get_detail_fxn self args.
Proof. by apply check_auth_pass. Qed.

(** X4: for a permitted environment and the correct secret, when the
    store matches no record of the collection with the application name,
    the body is [{"env": e}]. *)
Lemma get_detail_absent e a w :
  e ∈ collections Krest_init →
  Forall (λ d : pydict, app_is a d = false) (documents (db w) e) →
  (get_detail Krest_init [e; a] w).1 = Ok (jsonify (PyDict (<["env" := PyStr e]> ∅))).
Proof.
  intros _ Hno. rewrite get_detail_pass.
  by destruct (get_detail_fxn_absent Krest_init e a w (first_match_None _ _ Hno))
    as [news ->].
Qed.

(** C5: for a permitted environment and the correct secret, [get_list]
    returns the JSON array that has, for each record of the partition in
    storage order, the record's [app], or its [_id] when it has no [app];
    every record carries the [_id] the store gives it. *)
Theorem get_list_lists_apps e w :
  e ∈ collections Krest_init →
  Forall (λ x : pydict, is_Some (x !! "_id")) (documents (db w) e) →
  ∃ names,
    Forall2 listed (documents (db w) e) names ∧
    get_list Krest_init [e] w =
    (Ok (jsonify (PyList names)),
     World (db w) (queries w ++ [Find e]) (objects w)).
Proof.
  intros _ Hids.
  destruct (mapM_app_or_id_Ok _ (World (db w) (queries w ++ [Find e]) (objects w)) Hids)
    as (names & Hm & Hl).
  exists names. split; [done |].
  rewrite get_list_pass.
  rewrite get_list_fxn_unfold. by rewrite (bind_Ok _ _ _ _ _ Hm).
Qed.

(** C7: the detail output for a stored record keeps every field other
    than [_id] and [env] with its value, has no [_id], and has [env] set
    to the environment name, whatever [env] the record had. *)
Theorem get_detail_frame self e pk w d :
  first_match pk (documents (db w) e) = Some d →
  ∃ out w',
    get_detail self [e; pk] w = (Ok (jsonify (PyDict out)), w') ∧
    out !! "env" = Some (PyStr e) ∧
    out !! "_id" = None ∧
    ∀ k, k ≠ "_id" → k ≠ "env" → out !! k = d !! k.
Proof.
  intros Hd. destruct (get_detail_fxn_found self e pk w d Hd) as [news Hrun].
  eexists _, _. split; [by rewrite get_detail_pass, Hrun |].
  split; [by rewrite lookup_insert_eq |].
  split; [by rewrite lookup_insert_ne, lookup_delete_eq |].
  intros k Hid Henv. by rewrite lookup_insert_ne, lookup_delete_ne.
Qed.

(** C9: when every record of the partition has an [_id], [get_list]
    returns a body; a record with neither [app] nor [_id] makes it raise
    [KeyError]. *)
Theorem get_list_total self e w :
  (Forall (λ x : pydict, is_Some (x !! "_id")) (documents (db w) e) →
   ∃ body w', get_list self [e] w = (Ok body, w')) ∧
  (∀ x : pydict, x ∈ documents (db w) e → x !! "app" = None → x !! "_id" = None →
   ∃ w', get_list self [e] w = (Raise (KeyError "_id"), w')).
Proof.
  split.
  - intros Hids.
    destruct (mapM_app_or_id_Ok _ (World (db w) (queries w ++ [Find e]) (objects w)) Hids)
      as (names & Hm & _).
    eexists _, _. rewrite get_list_pass.
    rewrite get_list_fxn_unfold. by rewrite (bind_Ok _ _ _ _ _ Hm).
  - intros x Hin _ Hid. eexists. rewrite get_list_pass.
    rewrite get_list_fxn_unfold.
    by rewrite (bind_Raise _ _ _ _ _ (mapM_app_or_id_KeyError _ _ _ Hin Hid)).
Qed.

(** C10: the dict object that [find_one] hands to [get_detail] holds the
    same mapping after the response is rendered as when it was fetched:
    the objects live at the fetch are all unchanged, and so is the store. *)
Theorem get_detail_keeps_fetched self c pk w l w1 :
  find_one (Coll c) pk w = (Ok (Some l), w1) →
  ∃ d body w',
    objects w1 !! l = Some d ∧
    get_detail self [c; pk] w = (Ok body, w') ∧
    objects w' !! l = Some d ∧
    objects w1 `prefix_of` objects w' ∧
    db w' = db w.
Proof.
  intros Hfind.
  destruct (first_match pk (documents (db w) c)) as [d|] eqn:Hd.
  - rewrite (find_one_found _ _ _ _ Hd) in Hfind. injection Hfind as <- <-.
    destruct (get_detail_fxn_found self c pk w d Hd) as [news Hrun].
    exists d. eexists _, _. simpl.
    split; [apply lookup_new |].
    split; [by rewrite get_detail_pass, Hrun |]. simpl.
    split; [| split; [| done]].
    + rewrite cons_middle, (assoc_L (++)).
      rewrite lookup_app_l; [apply lookup_new |].
      rewrite length_app. simpl. lia.
    + exists news. by rewrite <- (assoc_L (++)).
  - rewrite (find_one_absent _ _ _ Hd) in Hfind. discriminate.
Qed.

Lemma get_list_fxn_store self args w :
  db (get_list_fxn self args w).2 = db w ∧
  ∀ w', db w = db w' → (get_list_fxn self args w).1 = (get_list_fxn self args w').1.
Proof.
  destruct args as [|c [|pk args]]; [by split | | by split].
  split.
  - rewrite get_list_fxn_unfold.
    destruct (mapM_app_or_id_pure (documents (db w) c)) as [[names|e] Hr].
    + by rewrite (bind_Ok _ _ _ _ _ (Hr _)).
    + by rewrite (bind_Raise _ _ _ _ _ (Hr _)).
  - intros w' Hdb. rewrite !get_list_fxn_unfold, <- Hdb.
    destruct (mapM_app_or_id_pure (documents (db w) c)) as [[names|e] Hr].
    + by rewrite !(bind_Ok _ _ _ _ _ (Hr _)).
    + by rewrite !(bind_Raise _ _ _ _ _ (Hr _)).
Qed.

Lemma get_detail_fxn_store self args w :
  db (get_detail_fxn self args w).2 = db w ∧
  ∀ w', db w = db w' → (get_detail_fxn self args w).1 = (get_detail_fxn self args w').1.
Proof.
  destruct args as [|c [|pk [|x args]]]; [by split | by split | | by split].
  destruct (first_match pk (documents (db w) c)) as [d|] eqn:Hd.
  - destruct (get_detail_fxn_found self c pk w d Hd) as [news ->].
    split; [done |]. intros w' Hdb. rewrite Hdb in Hd.
    by destruct (get_detail_fxn_found self c pk w' d Hd) as [news' ->].
  - destruct (get_detail_fxn_absent self c pk w Hd) as [news ->].
    split; [done |]. intros w' Hdb. rewrite Hdb in Hd.
    by destruct (get_detail_fxn_absent self c pk w' Hd) as [news' ->].
Qed.

(** C8: with the correct secret, the result of [get_list] and of
    [get_detail] is a function of the request and of the backing store
    alone, and a request leaves the backing store as it is; so the same
    request, made again, gets the same body. *)
Theorem repeated_get_same_body self args w :
  ((∀ w', db w = db w' → (get_list self args w).1 = (get_list self args w').1) ∧
   db (get_list self args w).2 = db w ∧
   (get_list self args (get_list self args w).2).1 = (get_list self args w).1) ∧
  ((∀ w', db w = db w' → (get_detail self args w).1 = (get_detail self args w').1) ∧
   db (get_detail self args w).2 = db w ∧
   (get_detail self args (get_detail self args w).2).1 = (get_detail self args w).1).
Proof.
  rewrite get_list_pass, get_detail_pass.
  destruct (get_list_fxn_store self args w) as [Hl1 Hl2].
  destruct (get_detail_fxn_store self args w) as [Hd1 Hd2].
  repeat split; try done; symmetry; [apply Hl2 | apply Hd2]; done.
Qed.

(** C3, as the code has it: for a permitted environment whose partition
    holds the record [{_id, app: a, x: 1, y: 2}], with no record before it
    that the store matches with [a], [get_detail] returns
    [{"app": a, "x": 1, "y": 2, "env": e}]: the [_id] is gone and the
    [app] field is kept. *)
Theorem get_detail_of_record e a oid w pre post :
  e ∈ collections Krest_init →
  documents (db w) e = pre ++ record_xy oid a :: post →
  Forall (λ d : pydict, app_is a d = false) pre →
  ∃ out w',
    get_detail Krest_init [e; a] w = (Ok (jsonify (PyDict out)), w') ∧
    out = <["app" := PyStr a]> (<["x" := PyInt 1]> (<["y" := PyInt 2]>
            (<["env" := PyStr e]> ∅))) ∧
    out !! "_id" = None ∧
    out !! "app" = Some (PyStr a).
Proof.
  intros _ Hdocs Hpre.
  assert (first_match a (documents (db w) e) = Some (record_xy oid a)) as Hd.
  { rewrite Hdocs. apply first_match_first; [done |].
    unfold app_is, record_xy. rewrite lookup_insert_ne, lookup_insert_eq by done.
    by apply bool_decide_eq_true. }
  destruct (get_detail_fxn_found Krest_init e a w _ Hd) as [news Hrun].
  eexists _, _. split; [by rewrite get_detail_pass, Hrun |].
  assert (<["env" := PyStr e]> (delete "_id" (record_xy oid a)) =
          <["app" := PyStr a]> (<["x" := PyInt 1]> (<["y" := PyInt 2]>
            (<["env" := PyStr e]> ∅)))) as ->.
  { apply map_eq. intros k. unfold record_xy.
    destruct (decide (k = "env")) as [->|]; [by simplify_map_eq |].
    destruct (decide (k = "_id")) as [->|]; [by simplify_map_eq |].
    destruct (decide (k = "app")) as [->|]; [by simplify_map_eq |].
    destruct (decide (k = "x")) as [->|]; [by simplify_map_eq |].
    destruct (decide (k = "y")) as [->|]; by simplify_map_eq. }
  split; [done |]. split; by simplify_map_eq.
Qed.

End Authorised.

End Krest.

(** ** The write handlers *)

(** On the detail route, [PUT], [PATCH] and [DELETE] raise
    [HTTPError 500 "not implemented"] whatever the request carries, and
    leave the world as it is. *)
Lemma write_detail_not_implemented pass req self method c pk w :
  method ∈ ["put"; "patch"; "delete"] →
  (λ served : py response, served w)
    <$> dispatch pass req self method (detail_route c pk) =
  Some (Raise (HTTPError 500 "not implemented"), w).
Proof.
  rewrite !elem_of_cons, elem_of_nil. intros [-> | [-> | [-> | []]]]; reflexivity.
Qed.

(** C6 at [POST /dev]: [post_list] is [patch_detail], which takes the
    collection and a key; the list route passes the collection alone, so
    the call raises [TypeError] and [abort(code=500, text='not
    implemented')] is not reached. *)
Theorem post_list_raises_TypeError pass req w :
  (λ served : py response, served w)
    <$> dispatch pass req Krest_init "post" (list_route "dev") =
  Some (Raise TypeError, w) ∧
  (@Raise response TypeError) ≠ (Raise (HTTPError 500 "not implemented")).
Proof. split; [reflexivity | discriminate]. Qed.

(** ** Unpermitted environments *)

(** C1 at [GET /staging?key=mypass]: [staging] is not a permitted
    environment, yet [get_list] queries the collection and returns its
    listing, and [get_detail] queries it and returns the document; neither
    returns the 404 body. *)
Theorem unpermitted_env_is_queried :
  ¬ ("staging" ∈ collections Krest_init) ∧
  get_list "mypass" (req_with_key "mypass") Krest_init ["staging"] (fresh store_staging) =
    (Ok (jsonify (PyList [PyStr "billing"])),
     World store_staging [Find "staging"] []) ∧
  jsonify (PyList [PyStr "billing"]) ≠ error404 (Some "invalid environment") ∧
  (get_detail "mypass" (req_with_key "mypass") Krest_init ["staging"; "billing"]
     (fresh store_staging)).1 =
    Ok (jsonify (PyDict (<["app" := PyStr "billing"]> (<["env" := PyStr "staging"]> ∅)))) ∧
  queries (get_detail "mypass" (req_with_key "mypass") Krest_init ["staging"; "billing"]
             (fresh store_staging)).2 = [FindOne "staging" "billing"].
Proof.
  split; [| split; [| split; [| split]]].
  - unfold Krest_init; simpl. rewrite !elem_of_cons, elem_of_nil.
    intros [? | [? | [? | []]]]; discriminate.
  - vm_compute. reflexivity.
  - discriminate.
  - vm_compute. reflexivity.
  - vm_compute. reflexivity.
Qed.

(** ** A missing application *)

(** C2 at [GET /dev/ghost?key=mypass]: no record of [dev] has
    [app == "ghost"], and the body is [{"env": "dev"}], not [{}]: [env] is
    set before the emptiness test, so the test never fails. *)
Theorem missing_app_gets_env :
  "dev" ∈ collections Krest_init ∧
  (∀ d : pydict, d ∈ documents store_dev "dev" → d !! "app" ≠ Some (PyStr "ghost")) ∧
  (get_detail "mypass" (req_with_key "mypass") Krest_init ["dev"; "ghost"]
     (fresh store_dev)).1 =
    Ok (jsonify (PyDict (<["env" := PyStr "dev"]> ∅))) ∧
  (get_detail "mypass" (req_with_key "mypass") Krest_init ["dev"; "ghost"]
     (fresh store_dev)).1 ≠ Ok (jsonify (PyDict ∅)).
Proof.
  split; [| split; [| split]].
  - unfold Krest_init; simpl. rewrite !elem_of_cons. by left.
  - intros d Hd.
    assert (documents store_dev "dev" =
            [record_xy "5f1" "a";
             <["_id" := ObjectId "5f2"]> (<["port" := PyInt 80]> ∅)]) as E
      by (vm_compute; reflexivity).
    rewrite E, !elem_of_cons, elem_of_nil in Hd.
    destruct Hd as [-> | [-> | []]]; vm_compute; discriminate.
  - vm_compute. reflexivity.
  - intros H. vm_compute in H. discriminate.
Qed.

(** ** The record [{app: "a", x: 1, y: 2}] *)

(** C3 as stated fails at [GET /dev/a?key=mypass], in two ways.  When
    the partition holds the record and no other record for [a], the body
    is not [{"x": 1, "y": 2, "env": "dev"}], since it has the [app] field.
    When a record whose [app] is the array [["a"]] comes before it, the
    partition still holds the record, and the body is made from the
    earlier record. *)
Lemma get_detail_keeps_app :
  "dev" ∈ collections Krest_init ∧
  (record_xy "5f1" "a" ∈ documents store_dev "dev" ∧
   (get_detail "mypass" (req_with_key "mypass") Krest_init ["dev"; "a"]
      (fresh store_dev)).1 ≠
     Ok (jsonify (PyDict (<["x" := PyInt 1]> (<["y" := PyInt 2]>
                           (<["env" := PyStr "dev"]> ∅))))) ∧
   ∃ out, (get_detail "mypass" (req_with_key "mypass") Krest_init ["dev"; "a"]
             (fresh store_dev)).1 = Ok (jsonify (PyDict out)) ∧
          out !! "app" = Some (PyStr "a")) ∧
  (record_xy "5f1" "a" ∈ documents store_two "dev" ∧
   (get_detail "mypass" (req_with_key "mypass") Krest_init ["dev"; "a"]
      (fresh store_two)).1 ≠
     Ok (jsonify (PyDict (<["x" := PyInt 1]> (<["y" := PyInt 2]>
                           (<["env" := PyStr "dev"]> ∅))))) ∧
   (get_detail "mypass" (req_with_key "mypass") Krest_init ["dev"; "a"]
      (fresh store_two)).1 =
     Ok (jsonify (PyDict (<["app" := PyList [PyStr "a"]]> (<["z" := PyInt 9]>
                           (<["env" := PyStr "dev"]> ∅)))))).
Proof.
  split; [| split; [split; [| split] | split; [| split]]].
  - unfold Krest_init; simpl. rewrite !elem_of_cons. by left.
  - change (documents store_dev "dev") with
      [record_xy "5f1" "a"; <["_id" := ObjectId "5f2"]> (<["port" := PyInt 80]> ∅)].
    by left.
  - intros H. vm_compute in H. discriminate.
  - eexists. split; [vm_compute; reflexivity | vm_compute; reflexivity].
  - change (documents store_two "dev") with [record_array; record_xy "5f1" "a"].
    right. by left.
  - intros H. vm_compute in H. discriminate.
  - vm_compute. reflexivity.
Qed.

(** ** Instances *)

Lemma unauthorized_is_401_witness :
  get_list "mypass" (req_with_key "guess") Krest_init ["dev"] (fresh store_dev) =
    (Ok (error401 None), fresh store_dev) ∧
  get_detail "mypass" req_without_key Krest_init ["dev"; "a"] (fresh store_dev) =
    (Ok (error401 None), fresh store_dev).
Proof.
  split.
  - apply (unauthorized_is_401 "mypass" (req_with_key "guess") Krest_init
             ["dev"] (fresh store_dev)).
    vm_compute. discriminate.
  - apply (unauthorized_is_401 "mypass" req_without_key Krest_init
             ["dev"; "a"] (fresh store_dev)).
    vm_compute. discriminate.
Defined.

Lemma mypass_ok : GET (req_with_key "mypass") !! "key" = Some "mypass".
Proof. reflexivity. Defined.

Lemma dev_permitted : "dev" ∈ collections Krest_init.
Proof. unfold Krest_init; simpl. rewrite !elem_of_cons. by left. Defined.

Lemma store_dev_documents :
  documents store_dev "dev" =
  [record_xy "5f1" "a"; <["_id" := ObjectId "5f2"]> (<["port" := PyInt 80]> ∅)].
Proof. reflexivity. Defined.

Lemma store_dev_ids :
  Forall (λ x : pydict, is_Some (x !! "_id")) (documents store_dev "dev").
Proof. rewrite store_dev_documents. repeat constructor; by eexists. Defined.

Lemma get_list_lists_apps_witness :
  ∃ names,
    Forall2 listed (documents store_dev "dev") names ∧
    get_list "mypass" (req_with_key "mypass") Krest_init ["dev"] (fresh store_dev) =
    (Ok (jsonify (PyList names)), World store_dev [Find "dev"] []).
Proof.
  exact (get_list_lists_apps "mypass" (req_with_key "mypass") mypass_ok
           "dev" (fresh store_dev) dev_permitted store_dev_ids).
Defined.

Lemma get_detail_frame_witness :
  record_web !! "env" = Some (PyStr "old") ∧
  ∃ out w',
    get_detail "mypass" (req_with_key "mypass") Krest_init ["test"; "web"] (fresh store_test) =
      (Ok (jsonify (PyDict out)), w') ∧
    out !! "env" = Some (PyStr "test") ∧
    out !! "_id" = None ∧
    ∀ k, k ≠ "_id" → k ≠ "env" → out !! k = record_web !! k.
Proof.
  split; [reflexivity |].
  apply (get_detail_frame "mypass" (req_with_key "mypass") mypass_ok
           Krest_init "test" "web" (fresh store_test) record_web).
  reflexivity.
Defined.

Lemma get_list_total_witness :
  (∃ body w', get_list "mypass" (req_with_key "mypass") Krest_init ["dev"]
                (fresh store_dev) = (Ok body, w')) ∧
  (∃ w', get_list "mypass" (req_with_key "mypass") Krest_init ["dev"]
           (fresh store_bare) = (Raise (KeyError "_id"), w')).
Proof.
  split.
  - apply (get_list_total "mypass" (req_with_key "mypass") mypass_ok
             Krest_init "dev" (fresh store_dev)).
    exact store_dev_ids.
  - apply (proj2 (get_list_total "mypass" (req_with_key "mypass") mypass_ok
                    Krest_init "dev" (fresh store_bare))
             (<["port" := PyInt 80]> ∅)).
    + change (documents (db (fresh store_bare)) "dev") with [<["port" := PyInt 80]> (∅ : pydict)].
      by left.
    + reflexivity.
    + reflexivity.
Defined.

Lemma get_detail_keeps_fetched_witness :
  ∃ d body w',
    objects (World store_dev [FindOne "dev" "a"] [record_xy "5f1" "a"]) !! 0%nat = Some d ∧
    get_detail "mypass" (req_with_key "mypass") Krest_init ["dev"; "a"] (fresh store_dev) =
      (Ok body, w') ∧
    objects w' !! 0%nat = Some d ∧
    objects (World store_dev [FindOne "dev" "a"] [record_xy "5f1" "a"])
      `prefix_of` objects w' ∧
    db w' = db (fresh store_dev).
Proof.
  apply (get_detail_keeps_fetched "mypass" (req_with_key "mypass") mypass_ok
           Krest_init "dev" "a" (fresh store_dev) 0%nat).
  reflexivity.
Defined.

Lemma repeated_get_same_body_witness :
  (get_list "mypass" (req_with_key "mypass") Krest_init ["dev"]
     (get_list "mypass" (req_with_key "mypass") Krest_init ["dev"] (fresh store_dev)).2).1 =
  (get_list "mypass" (req_with_key "mypass") Krest_init ["dev"] (fresh store_dev)).1 ∧
  (get_detail "mypass" (req_with_key "mypass") Krest_init ["dev"; "a"]
     (get_detail "mypass" (req_with_key "mypass") Krest_init ["dev"; "a"] (fresh store_dev)).2).1 =
  (get_detail "mypass" (req_with_key "mypass") Krest_init ["dev"; "a"] (fresh store_dev)).1.
Proof.
  split.
  - apply (repeated_get_same_body "mypass" (req_with_key "mypass") mypass_ok
             Krest_init ["dev"] (fresh store_dev)).
  - apply (repeated_get_same_body "mypass" (req_with_key "mypass") mypass_ok
             Krest_init ["dev"; "a"] (fresh store_dev)).
Defined.

Lemma get_detail_of_record_witness :
  ∃ out w',
    get_detail "mypass" (req_with_key "mypass") Krest_init ["dev"; "a"] (fresh store_later) =
      (Ok (jsonify (PyDict out)), w') ∧
    out = <["app" := PyStr "a"]> (<["x" := PyInt 1]> (<["y" := PyInt 2]>
            (<["env" := PyStr "dev"]> ∅))) ∧
    out !! "_id" = None ∧
    out !! "app" = Some (PyStr "a").
Proof.
  apply (get_detail_of_record "mypass" (req_with_key "mypass") mypass_ok
           "dev" "a" "5f1" (fresh store_later)
           [<["_id" := ObjectId "5f2"]> (<["port" := PyInt 80]> ∅)] [] dev_permitted).
  - reflexivity.
  - repeat constructor.
Defined.

(** ** More on the handlers *)

Section Handlers.

Context (MASTER_PASS : string) (request : Request).

Lemma get_list_fxn_world self args w :
  (get_list_fxn self args w).2 = w ∨
  ∃ c, args = [c] ∧
       (get_list_fxn self args w).2 = World (db w) (queries w ++ [Find c]) (objects w).
Proof.
  destruct args as [|c [|pk args]]; [by left | | by left].
  right. exists c. split; [done |]. rewrite get_list_fxn_unfold.
  destruct (mapM_app_or_id_pure (documents (db w) c)) as [[names|e] Hr].
  - by rewrite (bind_Ok _ _ _ _ _ (Hr _)).
  - by rewrite (bind_Raise _ _ _ _ _ (Hr _)).
Qed.

Lemma get_detail_fxn_world self args w :
  (get_detail_fxn self args w).2 = w ∨
  ∃ c pk news, args = [c; pk] ∧
       (get_detail_fxn self args w).2 =
       World (db w) (queries w ++ [FindOne c pk]) (objects w ++ news).
Proof.
  destruct args as [|c [|pk [|x args]]]; [by left | by left | | by left].
  right. exists c, pk.
  destruct (first_match pk (documents (db w) c)) as [d|] eqn:Hd.
  - destruct (get_detail_fxn_found self c pk w d Hd) as [news ->]. by exists (d :: news).
  - destruct (get_detail_fxn_absent self c pk w Hd) as [news ->]. by exists news.
Qed.

(** X1: whatever the key and the arguments of a request, [get_list] and
    [get_detail] leave the store as it is, leave every live dict object
    as it is, and make at most one storage call. *)
Theorem handlers_read_only self args w :
  (db (get_list MASTER_PASS request self args w).2 = db w ∧
   objects (get_list MASTER_PASS request self args w).2 = objects w ∧
   (queries (get_list MASTER_PASS request self args w).2 = queries w ∨
    ∃ c, queries (get_list MASTER_PASS request self args w).2 = queries w ++ [Find c])) ∧
  (db (get_detail MASTER_PASS request self args w).2 = db w ∧
   objects w `prefix_of` objects (get_detail MASTER_PASS request self args w).2 ∧
   (queries (get_detail MASTER_PASS request self args w).2 = queries w ∨
    ∃ c pk, queries (get_detail MASTER_PASS request self args w).2
            = queries w ++ [FindOne c pk])).
Proof.
  unfold get_list, get_detail, check_auth.
  destruct (bool_decide (GET request !! "key" = Some MASTER_PASS)).
  - split.
    + destruct (get_list_fxn_world self args w) as [-> | (c & _ & ->)]; simpl; eauto.
    + destruct (get_detail_fxn_world self args w) as [-> | (c & pk & news & _ & ->)];
        simpl; [by eauto |].
      split; [done |]. split; [by exists news | eauto].
  - simpl. by eauto 10.
Qed.

(** X2: the environments that the object permits have no effect on the
    handlers: two objects on the same database that differ in their
    permitted environments give the same result and leave the same world,
    for every request and every path. *)
Theorem permitted_list_has_no_effect database permitted permitted' args w :
  get_list MASTER_PASS request
    {| database := database; collections := permitted |} args w =
  get_list MASTER_PASS request
    {| database := database; collections := permitted' |} args w ∧
  get_detail MASTER_PASS request
    {| database := database; collections := permitted |} args w =
  get_detail MASTER_PASS request
    {| database := database; collections := permitted' |} args w.
Proof.
  unfold get_list, get_detail, check_auth.
  destruct (bool_decide (GET request !! "key" = Some MASTER_PASS)); [| done].
  split.
  - destruct args as [|c [|pk args]]; [done | | done].
    unfold get_list_fxn. by rewrite !(bind_Ok _ _ _ _ _ (get_collection_Ok _ _ _)).
  - destruct args as [|c [|pk [|x args]]]; [done | done | | done].
    unfold get_detail_fxn. by rewrite !(bind_Ok _ _ _ _ _ (get_collection_Ok _ _ _)).
Qed.

Section WithKey.

Hypothesis key_ok : GET request !! "key" = Some MASTER_PASS.

(** X3: with the correct secret, a response that [get_detail] returns is
    a JSON object that has [env] set to the environment of the path and
    has no [_id]; so it is never the empty object, with or without a
    matching record. *)
Theorem get_detail_body_has_env self args w body w' :
  get_detail MASTER_PASS request self args w = (Ok body, w') →
  ∃ e a out,
    args = [e; a] ∧
    body = jsonify (PyDict out) ∧
    out !! "env" = Some (PyStr e) ∧
    out !! "_id" = None ∧
    out ≠ ∅.
Proof.
  rewrite (get_detail_pass _ _ key_ok).
  destruct args as [|e [|a [|x args]]]; [done | done | | done].
  intros Hrun. exists e, a.
  destruct (first_match a (documents (db w) e)) as [d|] eqn:Hd.
  - destruct (get_detail_fxn_found self e a w d Hd) as [news Hf].
    rewrite Hf in Hrun. injection Hrun as <- _.
    eexists. split; [done |]. split; [done |].
    split; [by rewrite lookup_insert_eq |].
    split; [by rewrite lookup_insert_ne, lookup_delete_eq |].
    apply insert_non_empty.
  - destruct (get_detail_fxn_absent self e a w Hd) as [news Hf].
    rewrite Hf in Hrun. injection Hrun as <- _.
    eexists. split; [done |]. split; [done |].
    split; [by rewrite lookup_insert_eq |].
    split; [by rewrite lookup_insert_ne |].
    apply insert_non_empty.
Qed.

(** X5: with the correct secret, no response is the 401 body or a 404 body:
    [get_list] returns an array or raises, [get_detail] returns an object
    that has [env]. *)
Theorem authorised_never_error_body self args w message :
  (get_list MASTER_PASS request self args w).1 ≠ Ok (error401 None) ∧
  (get_list MASTER_PASS request self args w).1 ≠ Ok (error404 message) ∧
  (get_detail MASTER_PASS request self args w).1 ≠ Ok (error401 None) ∧
  (get_detail MASTER_PASS request self args w).1 ≠ Ok (error404 message).
Proof.
  rewrite (get_list_pass _ _ key_ok), (get_detail_pass _ _ key_ok).
  assert (∀ r, (get_list_fxn self args w).1 = Ok (jsonify (PyDict r)) → False) as Hl.
  { intros r. destruct args as [|c [|pk args]]; [done | | done].
    rewrite get_list_fxn_unfold.
    destruct (mapM_app_or_id_pure (documents (db w) c)) as [[names|e] Hr].
    - by rewrite (bind_Ok _ _ _ _ _ (Hr _)).
    - by rewrite (bind_Raise _ _ _ _ _ (Hr _)). }
  assert (∀ r, (get_detail_fxn self args w).1 = Ok (jsonify (PyDict r)) →
               is_Some (r !! "env")) as Hd.
  { intros r. destruct args as [|c [|pk [|x args]]]; [done | done | | done].
    destruct (first_match pk (documents (db w) c)) as [d|] eqn:Hm.
    - destruct (get_detail_fxn_found self c pk w d Hm) as [news ->].
      intros [= <-]. by rewrite lookup_insert_eq.
    - destruct (get_detail_fxn_absent self c pk w Hm) as [news ->].
      intros [= <-]. by rewrite lookup_insert_eq. }
  repeat split; intros H.
  - by apply Hl in H.
  - by apply Hl in H.
  - apply Hd in H as [v Hv]. by rewrite !lookup_insert_ne, lookup_empty in Hv.
  - apply Hd in H as [v Hv]. by rewrite !lookup_insert_ne, lookup_empty in Hv.
Qed.

(** X6: with the correct secret, [get_list] raises [KeyError('_id')] exactly
    when some record of the collection has no [_id], whether or not the
    record has an [app]; otherwise it returns one entry per record. *)
Theorem get_list_KeyError_iff self e w :
  ((∃ x : pydict, x ∈ documents (db w) e ∧ x !! "_id" = None) ↔
   (get_list MASTER_PASS request self [e] w).1 = Raise (KeyError "_id")) ∧
  (Forall (λ x : pydict, is_Some (x !! "_id")) (documents (db w) e) ↔
   ∃ names, (get_list MASTER_PASS request self [e] w).1 = Ok (jsonify (PyList names)) ∧
            length names = length (documents (db w) e)).
Proof.
  rewrite (get_list_pass _ _ key_ok), get_list_fxn_unfold.
  set (w1 := World (db w) (queries w ++ [Find e]) (objects w)).
  destruct (decide (Forall (λ x : pydict, is_Some (x !! "_id")) (documents (db w) e)))
    as [Hall | Hnot].
  - destruct (mapM_app_or_id_Ok _ w1 Hall) as (names & Hm & Hl).
    rewrite (bind_Ok _ _ _ _ _ Hm). simpl. split; split.
    + intros (x & Hin & Hx). rewrite Forall_forall in Hall.
      apply Hall in Hin as [v Hv]. congruence.
    + discriminate.
    + intros _. exists names. split; [done |]. symmetry. by eapply Forall2_length.
    + done.
  - apply not_Forall_Exists, Exists_exists in Hnot as (x & Hin & Hx); [| apply _].
    assert (x !! "_id" = None) as Hid by by apply eq_None_not_Some.
    rewrite (bind_Raise _ _ _ _ _ (mapM_app_or_id_KeyError _ _ w1 Hin Hid)). simpl.
    split; split.
    + done.
    + intros _. eauto.
    + intros Hall. rewrite Forall_forall in Hall. by apply Hall in Hin.
    + intros (names & Hn & _). discriminate.
Qed.


(** X8: with the correct secret, a response depends on the store only
    through the collection named in the path: two stores that agree on
    that collection give the same result, whatever their other
    collections hold. *)
Theorem other_collections_do_not_matter self e a w w' :
  db w !! e = db w' !! e →
  (get_list MASTER_PASS request self [e] w).1
    = (get_list MASTER_PASS request self [e] w').1 ∧
  (get_detail MASTER_PASS request self [e; a] w).1
    = (get_detail MASTER_PASS request self [e; a] w').1.
Proof.
  intros Heq.
  assert (documents (db w) e = documents (db w') e) as Hdocs
    by (unfold documents; by rewrite Heq).
  rewrite !(get_list_pass _ _ key_ok), !(get_detail_pass _ _ key_ok). split.
  - rewrite !get_list_fxn_unfold, Hdocs.
    destruct (mapM_app_or_id_pure (documents (db w') e)) as [[names|x] Hr].
    + by rewrite !(bind_Ok _ _ _ _ _ (Hr _)).
    + by rewrite !(bind_Raise _ _ _ _ _ (Hr _)).
  - destruct (first_match a (documents (db w) e)) as [d|] eqn:Hd.
    + destruct (get_detail_fxn_found self e a w d Hd) as [news ->].
      rewrite Hdocs in Hd.
      by destruct (get_detail_fxn_found self e a w' d Hd) as [news' ->].
    + destruct (get_detail_fxn_absent self e a w Hd) as [news ->].
      rewrite Hdocs in Hd.
      by destruct (get_detail_fxn_absent self e a w' Hd) as [news' ->].
Qed.

End WithKey.

End Handlers.

(** ** Stripping the password file *)

Lemma lstrip_blank l : blank l → lstrip l = [].
Proof. induction 1 as [|c l Hc _ IH]; simpl; [done | by rewrite Hc]. Qed.

Lemma lstrip_app_blank pre l : blank pre → lstrip (pre ++ l) = lstrip l.
Proof. induction 1 as [|c pre Hc _ IH]; simpl; [done | by rewrite Hc]. Qed.

Lemma lstrip_head l c l' : lstrip l = c :: l' → is_space c = false.
Proof.
  induction l as [|x l IH]; simpl; [done |].
  destruct (is_space x) eqn:Hx; [done |]. by intros [= <- _].
Qed.

Lemma lstrip_split l : ∃ pre, blank pre ∧ l = pre ++ lstrip l.
Proof.
  induction l as [|x l (pre & Hpre & IH)]; simpl; [by exists [] |].
  destruct (is_space x) eqn:Hx.
  - exists (x :: pre). split; [by constructor |]. simpl. by rewrite <- IH.
  - by exists [].
Qed.

Lemma lstrip_fixed c l : is_space c = false → lstrip (c :: l) = c :: l.
Proof. intros H. simpl. by rewrite H. Qed.

Lemma rstrip_blank l : blank l → rstrip l = [].
Proof. intros H. unfold rstrip. by rewrite lstrip_blank by by apply Forall_rev. Qed.

Lemma rstrip_app_blank l post : blank post → rstrip (l ++ post) = rstrip l.
Proof.
  intros H. unfold rstrip. rewrite rev_app_distr.
  by rewrite lstrip_app_blank by by apply Forall_rev.
Qed.

Lemma rstrip_last l c l' : rstrip l = l' ++ [c] → is_space c = false.
Proof.
  unfold rstrip. intros H. apply (f_equal (λ x, rev x)) in H.
  rewrite rev_involutive, rev_app_distr in H. by apply lstrip_head in H.
Qed.

Lemma rstrip_split l : ∃ post, blank post ∧ l = rstrip l ++ post.
Proof.
  destruct (lstrip_split (rev l)) as (pre & Hpre & H).
  exists (rev pre). split; [by apply Forall_rev |].
  unfold rstrip. by rewrite <- rev_app_distr, <- H, rev_involutive.
Qed.

Lemma rstrip_head c l c' l' :
  is_space c = false → rstrip (c :: l) = c' :: l' → c' = c.
Proof.
  intros Hc H. destruct (rstrip_split (c :: l)) as (post & Hpost & Hs).
  rewrite H in Hs. by injection Hs.
Qed.

Lemma rstrip_nonempty c l : is_space c = false → rstrip (c :: l) ≠ [].
Proof.
  intros Hc H. destruct (rstrip_split (c :: l)) as (post & Hpost & Hs).
  rewrite H in Hs. simpl in Hs. subst post.
  apply Forall_cons in Hpost as [Hc' _]. congruence.
Qed.

(** The stripped list has no blank at either end, and blanks around the
    input do not change it. *)
Lemma strip_list_head l c l' : rstrip (lstrip l) = c :: l' → is_space c = false.
Proof.
  intros H. destruct (lstrip l) as [|x m] eqn:Hl; [done |].
  pose proof (lstrip_head _ _ _ Hl) as Hx.
  by rewrite (rstrip_head _ _ _ _ Hx H).
Qed.

Lemma strip_list_padding pre l post :
  blank pre → blank post →
  rstrip (lstrip (pre ++ l ++ post)) = rstrip (lstrip l).
Proof.
  intros Hpre Hpost. rewrite lstrip_app_blank by done.
  destruct (lstrip_split l) as (pre' & Hpre' & Hl).
  destruct (lstrip l) as [|x m] eqn:Hm.
  - rewrite (right_id_L [] (++)) in Hl. subst pre'.
    rewrite lstrip_blank; [by rewrite rstrip_blank |]. by apply Forall_app.
  - rewrite Hl at 1. rewrite <- (assoc_L (++)), lstrip_app_blank by done.
    change ((x :: m) ++ post) with (x :: (m ++ post)).
    rewrite (lstrip_fixed x (m ++ post) (lstrip_head _ _ _ Hm)).
    by rewrite app_comm_cons, rstrip_app_blank.
Qed.

Lemma list_ascii_of_string_app s1 s2 :
  list_ascii_of_string (s1 +:+ s2) = list_ascii_of_string s1 ++ list_ascii_of_string s2.
Proof. induction s1 as [|c s1 IH]; simpl; [done | by rewrite IH]. Qed.

Lemma strip_list_of s :
  list_ascii_of_string (strip s) = rstrip (lstrip (list_ascii_of_string s)).
Proof. unfold strip. apply list_ascii_of_string_of_list_ascii. Qed.

Lemma strip_no_outer_space s c rest :
  is_space c = true →
  strip s ≠ String c rest ∧ strip s ≠ rest +:+ String c "".
Proof.
  intros Hc. split; intros H; apply (f_equal list_ascii_of_string) in H;
    rewrite strip_list_of in H.
  - simpl in H. apply strip_list_head in H. congruence.
  - rewrite list_ascii_of_string_app in H. simpl in H.
    apply rstrip_last in H. congruence.
Qed.

Lemma strip_padding pre s post :
  blank (list_ascii_of_string pre) → blank (list_ascii_of_string post) →
  strip (pre +:+ s +:+ post) = strip s.
Proof.
  intros Hpre Hpost. unfold strip.
  by rewrite !list_ascii_of_string_app, strip_list_padding.
Qed.

Lemma strip_blank s : blank (list_ascii_of_string s) → strip s = "".
Proof. intros H. unfold strip. by rewrite lstrip_blank. Qed.

(** ** Start-up *)

Lemma main_Serving here files store_up secret krest host port :
  main here files store_up = Serving secret krest host port ↔
  ∃ contents,
    files !! PASSWORD_FILE here = Some contents ∧
    secret = strip contents ∧
    is_Some (files !! CERT_FILE here) ∧
    is_Some (files !! PEM_FILE here) ∧
    store_up = true ∧
    krest = Krest_init ∧ host = "0.0.0.0" ∧ port = 8000.
Proof.
  unfold main. split.
  - destruct (files !! PASSWORD_FILE here) as [contents|]; [| done].
    repeat case_bool_decide; simpl; try done.
    destruct store_up; [| done].
    intros [= <- <- <- <-]. by exists contents.
  - intros (contents & -> & -> & Hc & Hp & -> & -> & -> & ->).
    by rewrite !bool_decide_eq_true_2.
Qed.

(** X12: blank characters around the contents of the password file do not
    change how the script ends, nor the secret it serves with. *)
Theorem main_ignores_padding here files store_up pre contents post :
  blank (list_ascii_of_string pre) → blank (list_ascii_of_string post) →
  main here (<[PASSWORD_FILE here := pre +:+ contents +:+ post]> files) store_up =
  main here (<[PASSWORD_FILE here := contents]> files) store_up.
Proof.
  intros Hpre Hpost. unfold main. rewrite !lookup_insert_eq.
  rewrite strip_padding by done.
  assert (∀ (path : string) (v1 v2 : string),
            bool_decide (is_Some (<[PASSWORD_FILE here := v1]> files !! path)) =
            bool_decide (is_Some (<[PASSWORD_FILE here := v2]> files !! path))) as Hsame.
  { intros path v1 v2. apply bool_decide_ext.
    destruct (decide (PASSWORD_FILE here = path)) as [<- | Hne].
    - rewrite !lookup_insert_eq. split; eauto.
    - by rewrite !lookup_insert_ne. }
  by rewrite (Hsame (CERT_FILE here) _ contents), (Hsame (PEM_FILE here) _ contents).
Qed.

(** X13: the secret the script serves with has no blank at either end, so a
    request whose [key] starts or ends with a blank gets the 401 body,
    whatever the password file holds. *)
Theorem padded_key_is_rejected here files store_up secret krest host port
    request fxn args w key c rest :
  main here files store_up = Serving secret krest host port →
  GET request !! "key" = Some key →
  is_space c = true →
  key = String c rest ∨ key = rest +:+ String c "" →
  check_auth secret request fxn args w = (Ok (error401 None), w).
Proof.
  intros (contents & _ & -> & _)%main_Serving Hkey Hc Hpad.
  apply check_auth_fail. rewrite Hkey. intros [= ->].
  destruct (strip_no_outer_space contents c rest Hc) as [H1 H2].
  destruct Hpad; congruence.
Qed.

(** X14: a password file that holds only blanks (or nothing) gives the empty
    secret: a request with an empty [key] is then let through to the
    handler, and only a request without [key] is refused. *)
Theorem blank_password_file here files store_up contents secret krest host port
    request fxn args w :
  files !! PASSWORD_FILE here = Some contents →
  blank (list_ascii_of_string contents) →
  main here files store_up = Serving secret krest host port →
  secret = "" ∧
  (GET request !! "key" = Some "" → check_auth secret request fxn args w = fxn args w) ∧
  (GET request !! "key" = None →
   check_auth secret request fxn args w = (Ok (error401 None), w)).
Proof.
  intros Hfile Hblank (contents' & Hfile' & -> & _)%main_Serving.
  rewrite Hfile in Hfile'. injection Hfile' as <-.
  rewrite (strip_blank _ Hblank). split; [done |]. split.
  - intros Hkey. by rewrite check_auth_pass.
  - intros Hkey. apply check_auth_fail. by rewrite Hkey.
Qed.

(** ** More instances *)

Lemma get_detail_body_has_env_witness :
  ∃ e a out,
    ["dev"; "ghost"] = [e; a] ∧
    jsonify (PyDict (<["env" := PyStr "dev"]> ∅)) = jsonify (PyDict out) ∧
    out !! "env" = Some (PyStr e) ∧ out !! "_id" = None ∧ out ≠ ∅.
Proof.
  apply (get_detail_body_has_env "mypass" (req_with_key "mypass") mypass_ok
           Krest_init ["dev"; "ghost"] (fresh store_dev)
           (jsonify (PyDict (<["env" := PyStr "dev"]> ∅)))
           (World store_dev [FindOne "dev" "ghost"] [∅; <["env" := PyStr "dev"]> ∅])).
  vm_compute. reflexivity.
Defined.

Lemma get_detail_absent_witness :
  (get_detail "mypass" (req_with_key "mypass") Krest_init ["dev"; "ghost"]
     (fresh store_dev)).1 = Ok (jsonify (PyDict (<["env" := PyStr "dev"]> ∅))).
Proof.
  apply (get_detail_absent "mypass" (req_with_key "mypass") mypass_ok
           "dev" "ghost" (fresh store_dev) dev_permitted).
  change (documents (db (fresh store_dev)) "dev") with
    [record_xy "5f1" "a"; <["_id" := ObjectId "5f2"]> (<["port" := PyInt 80]> ∅)].
  repeat constructor.
Defined.

Lemma authorised_never_error_body_witness :
  (get_list "mypass" (req_with_key "mypass") Krest_init ["staging"]
     (fresh store_staging)).1 ≠ Ok (error404 (Some "invalid environment")) ∧
  (get_detail "mypass" (req_with_key "mypass") Krest_init ["staging"; "billing"]
     (fresh store_staging)).1 ≠ Ok (error404 (Some "invalid environment")).
Proof.
  split;
    apply (authorised_never_error_body "mypass" (req_with_key "mypass") mypass_ok
             Krest_init _ (fresh store_staging) (Some "invalid environment")).
Defined.

Lemma get_list_KeyError_iff_witness :
  (get_list "mypass" (req_with_key "mypass") Krest_init ["dev"] (fresh store_no_id)).1
  = Raise (KeyError "_id").
Proof.
  apply (get_list_KeyError_iff "mypass" (req_with_key "mypass") mypass_ok
           Krest_init "dev" (fresh store_no_id)).
  exists (<["app" := PyStr "a"]> ∅). split; [| reflexivity].
  change (documents (db (fresh store_no_id)) "dev") with [<["app" := PyStr "a"]> (∅ : pydict)].
  by left.
Defined.


Lemma other_collections_do_not_matter_witness :
  (get_list "mypass" (req_with_key "mypass") Krest_init ["dev"] (fresh store_dev)).1
    = (get_list "mypass" (req_with_key "mypass") Krest_init ["dev"]
         (fresh store_dev_prod)).1 ∧
  (get_detail "mypass" (req_with_key "mypass") Krest_init ["dev"; "a"] (fresh store_dev)).1
    = (get_detail "mypass" (req_with_key "mypass") Krest_init ["dev"; "a"]
         (fresh store_dev_prod)).1.
Proof.
  apply (other_collections_do_not_matter "mypass" (req_with_key "mypass") mypass_ok
           Krest_init "dev" "a" (fresh store_dev) (fresh store_dev_prod)).
  vm_compute. reflexivity.
Defined.

Lemma newline_blank : blank (list_ascii_of_string newline).
Proof. by repeat constructor. Defined.

Lemma main_ignores_padding_witness :
  main "/srv/krest"
    (<[PASSWORD_FILE "/srv/krest" := "" +:+ "mypass" +:+ newline]> files_srv) true =
  main "/srv/krest" (<[PASSWORD_FILE "/srv/krest" := "mypass"]> files_srv) true.
Proof.
  apply (main_ignores_padding "/srv/krest" files_srv true "" "mypass" newline).
  - constructor.
  - exact newline_blank.
Defined.

Lemma padded_key_is_rejected_witness :
  check_auth "mypass" (req_with_key ("mypass" +:+ newline)) (get_list_fxn Krest_init)
    ["dev"] (fresh store_dev) = (Ok (error401 None), fresh store_dev).
Proof.
  apply (padded_key_is_rejected "/srv/krest" files_srv true "mypass" Krest_init "0.0.0.0" 8000
           (req_with_key ("mypass" +:+ newline)) (get_list_fxn Krest_init) ["dev"]
           (fresh store_dev) ("mypass" +:+ newline) (Ascii.ascii_of_nat 10) "mypass").
  - vm_compute. reflexivity.
  - reflexivity.
  - reflexivity.
  - by right.
Defined.

Lemma blank_password_file_witness :
  check_auth "" (req_with_key "") (get_list_fxn Krest_init) ["dev"] (fresh store_dev)
  = get_list_fxn Krest_init ["dev"] (fresh store_dev).
Proof.
  apply (blank_password_file "/srv/krest" files_blank true newline "" Krest_init "0.0.0.0" 8000
           (req_with_key "") (get_list_fxn Krest_init) ["dev"] (fresh store_dev)).
  - vm_compute. reflexivity.
  - exact newline_blank.
  - vm_compute. reflexivity.
  - reflexivity.
Defined.
